(** * daily_agent.py: the daily automation runner, embedded and verified

    The script is a straight line of effects: module-level configuration
    (imports, output directory, timestamp, credential), then one coroutine
    [run_daily_automation] that opens the tool provider in an [async with]
    block, submits one task and writes one file.  The embedding threads an
    explicit [World] (file system, live tool-provider processes, clock, and
    the chronological trace of observable effects) through a small
    state-and-exception monad whose results are the three ways a Python
    statement can finish: normally, by raising an [Exception], or by
    [sys.exit].

    What the script cannot decide itself is an input of the run: whether the
    packages import, the environment variables, the clock, whether the tool
    provider starts, what the hosted service answers, and whether the
    operating system accepts a file write. *)

From stdpp Require Import gmap strings list fin_maps.
From Stdlib Require Import ZArith Ascii String Lia.

(** ** Text *)

Definition nl : string := String (ascii_of_nat 10) EmptyString.
Definition dq : string := String (ascii_of_nat 34) EmptyString.

(** Python's [s * n] on strings. *)
Fixpoint str_mul (s : string) (n : nat) : string :=
  match n with
  | O => EmptyString
  | S k => s +:+ str_mul s k
  end.

(** [t in s] for strings. *)
Definition contains (s t : string) : Prop :=
  exists pre post, s = pre +:+ t +:+ post.

(** ** datetime *)

(** A naive [datetime] as [datetime.now()] returns it.  The fields are in
    the ranges the type enforces (year 1..9999, month 1..12, ...). *)
Record DateTime := mkDateTime {
  year : nat; month : nat; day : nat;
  hour : nat; minute : nat; second : nat;
  microsecond : nat
}.

Definition digit (n : nat) : ascii := ascii_of_nat (48 + n mod 10).

(** [%0wd] for a value below [10^w]: the last [w] decimal digits.  The
    fields of a [datetime] fit their widths (four digits for the years
    1000 to 9999, two for the others, six for the microseconds). *)
Fixpoint zpad (w n : nat) : string :=
  match w with
  | O => EmptyString
  | S k => zpad k (n / 10) +:+ String (digit n) EmptyString
  end.

(** [d.strftime("%Y%m%d_%H%M%S")] *)
Definition strftime_compact (d : DateTime) : string :=
  zpad 4 (year d) +:+ zpad 2 (month d) +:+ zpad 2 (day d) +:+ "_" +:+
  zpad 2 (hour d) +:+ zpad 2 (minute d) +:+ zpad 2 (second d).

(** [d.strftime('%Y-%m-%d')] *)
Definition strftime_date (d : DateTime) : string :=
  zpad 4 (year d) +:+ "-" +:+ zpad 2 (month d) +:+ "-" +:+ zpad 2 (day d).

(** [str(d)], that is [d.isoformat(sep=' ')]: the fraction is printed only
    when the microsecond is not zero. *)
Definition str_datetime (d : DateTime) : string :=
  zpad 4 (year d) +:+ "-" +:+ zpad 2 (month d) +:+ "-" +:+ zpad 2 (day d) +:+
  " " +:+ zpad 2 (hour d) +:+ ":" +:+ zpad 2 (minute d) +:+ ":" +:+
  zpad 2 (second d) +:+
  match microsecond d with
  | O => EmptyString
  | us => "." +:+ zpad 6 us
  end.

(** ** Exceptions and results *)

(** An instance of [Exception]: its class and [str(e)], the only thing the
    script ever asks of it. *)
Record Exc := mkExc { exc_class : string; exc_str : string }.

(** How a statement finishes.  [SysExit] is Python's [SystemExit], which is
    not an [Exception]: [except Exception] lets it through. *)
Inductive Res (A : Type) : Type :=
| Ok (a : A)
| Raise (e : Exc)
| SysExit (code : Z).
Arguments Ok {A} a.
Arguments Raise {A} e.
Arguments SysExit {A} code.

(** ** The world *)

Inductive Node := Dir | File (content : string).

Inductive Stream := Stdout | Stderr.

(** The tool-provider object of [MCPServerStdio(name=..., params=...,
    client_session_timeout_seconds=...)]; [srv_id] tells apart the objects
    of successive [async with] blocks. *)
Record MCPServerStdio := mkServer {
  srv_name : string;
  srv_command : string;
  srv_args : list string;
  client_session_timeout_seconds : Z;
  srv_id : nat
}.

Record Agent := mkAgent {
  agent_name : string;
  instructions : string;
  model : string;
  mcp_servers : list MCPServerStdio
}.

(** The arguments of one [Runner.run(agent, input, max_turns=...)]. *)
Record Task := mkTask {
  task_agent : Agent;
  task_input : string;
  max_turns : Z
}.

Record RunResult := mkRunResult { final_output : string }.

(** Observable effects, in the order they happen. *)
Inductive Event :=
| EPrint (s : Stream) (text : string)
| EMkdir (p : string)
| ESetDefaultApi (arg : string)
| ESpawn (srv : MCPServerStdio)
| ERelease (srv : MCPServerStdio)
| ESubmit (t : Task)
| EWrite (p : string) (content : string)
| ETraceback (e : Exc).

Record World := mkWorld {
  fs : gmap string Node;      (* path, as [str(Path)], to what is there *)
  live : gset nat;            (* tool providers running, channel open *)
  ticks : nat;                (* calls to [datetime.now()] so far *)
  next_id : nat;              (* id of the next tool-provider object *)
  trace : list Event
}.

Definition emit (e : Event) (w : World) : World :=
  mkWorld (fs w) (live w) (ticks w) (next_id w) (trace w ++ [e]).

Definition set_fs (f : gmap string Node) (w : World) : World :=
  mkWorld f (live w) (ticks w) (next_id w) (trace w).

Definition world0 (f : gmap string Node) : World :=
  mkWorld f ∅ 0 0 [].

(** ** The monad *)

Definition M (A : Type) : Type := World -> Res A * World.

#[global] Instance M_ret : MRet M := fun A (a : A) w => (Ok a, w).

#[global] Instance M_bind : MBind M := fun A B (k : A -> M B) (m : M A) w =>
  match m w with
  | (Ok a, w') => k a w'
  | (Raise e, w') => (Raise e, w')
  | (SysExit c, w') => (SysExit c, w')
  end.

(** [raise e] and [sys.exit(code)]. *)
Definition raise {A} (e : Exc) : M A := fun w => (Raise e, w).
Definition sys_exit {A} (code : Z) : M A := fun w => (SysExit code, w).

(** [try: body / except Exception as e: handler e].  A [SystemExit] of the
    body is not caught. *)
Definition try_except {A} (body : M A) (handler : Exc -> M A) : M A :=
  fun w =>
    match body w with
    | (Raise e, w') => handler e w'
    | r => r
    end.

(** [async with enter as h: body h].  [aexit] runs however the body
    finishes, and the body's own result (value, exception or exit) is what
    the block finishes with, [__aexit__] returning nothing truthy. *)
Definition async_with {H A} (aenter : M H) (aexit : H -> M unit)
    (body : H -> M A) : M A :=
  fun w =>
    match aenter w with
    | (Ok h, w1) =>
        match body h w1 with
        | (r, w2) =>
            match aexit h w2 with
            | (Ok _, w3) => (r, w3)
            | (Raise e, w3) => (Raise e, w3)
            | (SysExit c, w3) => (SysExit c, w3)
            end
        end
    | (Raise e, w1) => (Raise e, w1)
    | (SysExit c, w1) => (SysExit c, w1)
    end.

(** ** What the run is given *)

(** Per process: what the module-level code meets when the script is
    loaded. *)
Record ProcEnv := mkProcEnv {
  imports_ok : bool;                 (* [from agents import ...] succeeds *)
  environ : gmap string string;      (* [os.environ] *)
  clock : nat -> DateTime;           (* the n-th [datetime.now()] *)
  mkdir_err : option Exc             (* the OS refuses to create the directory *)
}.

(** Per call of [run_daily_automation]: the answers of the tool provider,
    of the hosted service and of the operating system.  The service call
    runs the agent, which may touch the file system through its tools, so
    its answer comes with the file system it leaves. *)
Record RunEnv := mkRunEnv {
  mcp_start_err : option Exc;
  service : Task -> gmap string Node -> gmap string Node * (Exc + string);
  summary_write_err : option Exc;
  error_write_err : option Exc
}.

(** ** Primitive operations *)

(** [print(text)] and [print(text, file=sys.stderr)]. *)
Definition print (s : Stream) (text : string) : M unit :=
  fun w => (Ok tt, emit (EPrint s text) w).

(** [datetime.now()] *)
Definition datetime_now (clk : nat -> DateTime) : M DateTime :=
  fun w => (Ok (clk (ticks w)),
            mkWorld (fs w) (live w) (S (ticks w)) (next_id w) (trace w)).

(** [os.getenv(name)] *)
Definition os_getenv (env : gmap string string) (name : string)
  : M (option string) :=
  fun w => (Ok (env !! name), w).

(** Python's truth value of [os.getenv]'s result: [None] and the empty
    string are false. *)
Definition truthy (o : option string) : bool :=
  match o with
  | None => false
  | Some EmptyString => false
  | Some (String _ _) => true
  end.

(** [str(Path(s))]: pathlib drops a leading [./]. *)
Definition Path (s : string) : string :=
  match s with
  | String "." (String "/" rest) => rest
  | _ => s
  end.

(** [p / name] *)
Definition path_join (p name : string) : string := p +:+ "/" +:+ name.

(** [p.mkdir(exist_ok=True)]: nothing to do when the directory is there,
    [FileExistsError] when something else is, creation otherwise. *)
Definition mkdir_exist_ok (err : option Exc) (p : string) : M unit :=
  fun w =>
    match fs w !! p with
    | Some Dir => (Ok tt, w)
    | Some (File _) =>
        (Raise (mkExc "FileExistsError"
                      ("[Errno 17] File exists: '" +:+ p +:+ "'")), w)
    | None =>
        match err with
        | Some e => (Raise e, w)
        | None => (Ok tt, emit (EMkdir p) (set_fs (<[p := Dir]> (fs w)) w))
        end
    end.

(** [p.write_text(data)]: the file is created or truncated and holds
    exactly [data]; when the operating system refuses, the exception is
    raised and the path is left as it was. *)
Definition write_text (err : option Exc) (p data : string) : M unit :=
  fun w =>
    match err with
    | Some e => (Raise e, w)
    | None => (Ok tt, emit (EWrite p data) (set_fs (<[p := File data]> (fs w)) w))
    end.

(** [set_default_openai_api(arg)]: a call into the agents package. *)
Definition set_default_openai_api (arg : string) : M unit :=
  fun w => (Ok tt, emit (ESetDefaultApi arg) w).

(** [MCPServerStdio(...).__aenter__()]: starts the external process and
    opens its channel, or raises having started nothing. *)
Definition mcp_aenter (err : option Exc) (name command : string)
    (args : list string) (timeout : Z) : M MCPServerStdio :=
  fun w =>
    match err with
    | Some e => (Raise e, w)
    | None =>
        let srv := mkServer name command args timeout (next_id w) in
        (Ok srv,
         emit (ESpawn srv)
           (mkWorld (fs w) ({[next_id w]} ∪ live w) (ticks w)
                    (S (next_id w)) (trace w)))
    end.

(** [__aexit__]: terminates the process and closes the channel. *)
Definition mcp_aexit (srv : MCPServerStdio) : M unit :=
  fun w =>
    (Ok tt,
     emit (ERelease srv)
       (mkWorld (fs w) (live w ∖ {[srv_id srv]}) (ticks w) (next_id w)
                (trace w))).

(** [await Runner.run(agent, input, max_turns=n)] *)
Definition Runner_run (svc : Task -> gmap string Node ->
                             gmap string Node * (Exc + string))
    (agent : Agent) (input : string) (n : Z) : M RunResult :=
  fun w =>
    let t := mkTask agent input n in
    let w1 := emit (ESubmit t) w in
    match svc t (fs w) with
    | (f, inl e) => (Raise e, set_fs f w1)
    | (f, inr out) => (Ok (mkRunResult out), set_fs f w1)
    end.

(** ** daily_agent.py *)

(** The module's global names once the module-level code has run. *)
Record Globals := mkGlobals {
  OUTPUT_DIR : string;
  DATE_STR : string;
  API_KEY : option string
}.

(** Lines 14-32: the guarded imports, the configuration and the credential
    check. *)
Definition module_level (pe : ProcEnv) : M Globals :=
  (if imports_ok pe then mret tt
   else
     print Stdout
       "Error: Required packages not installed. Run: pip install openai openai-agents";;
     sys_exit 1);;
  let output_dir := Path "./daily-automation-output" in
  mkdir_exist_ok (mkdir_err pe) output_dir;;
  now ← datetime_now (clock pe);
  let date_str := strftime_compact now in
  api_key ← os_getenv (environ pe) "OPENAI_API_KEY";
  (if truthy api_key then mret tt
   else
     print Stdout "Error: OPENAI_API_KEY environment variable not set";;
     sys_exit 1);;
  set_default_openai_api (default EmptyString api_key);;
  mret (mkGlobals output_dir date_str api_key).

Definition indent : string := str_mul " " 20.

(** The f-string of lines 54-65, with its line breaks and indentation. *)
Definition agent_instructions (today date_str : string) : string :=
  "You are a daily automation agent running on " +:+ today +:+ "." +:+ nl +:+
  indent +:+ nl +:+
  indent +:+ "Execute these tasks:" +:+ nl +:+
  indent +:+ "1. Analyze the repository structure and create a summary" +:+ nl +:+
  indent +:+ "2. Generate a daily status report" +:+ nl +:+
  indent +:+ "3. List any TODOs or issues found" +:+ nl +:+
  indent +:+ "4. Create recommendations for improvements" +:+ nl +:+
  indent +:+ nl +:+
  indent +:+ "Save all outputs to ./daily-automation-output/report-" +:+
    date_str +:+ ".md" +:+ nl +:+
  indent +:+ nl +:+
  indent +:+ "Always call Codex MCP with {" +:+
    dq +:+ "approval-policy" +:+ dq +:+ ":" +:+ dq +:+ "never" +:+ dq +:+ "," +:+
    dq +:+ "sandbox" +:+ dq +:+ ":" +:+ dq +:+ "workspace-write" +:+ dq +:+
    "}." +:+ nl +:+
  indent.

Definition summary_path (g : Globals) : string :=
  path_join (OUTPUT_DIR g) ("summary-" +:+ DATE_STR g +:+ ".txt").

Definition error_path (g : Globals) : string :=
  path_join (OUTPUT_DIR g) ("error-" +:+ DATE_STR g +:+ ".log").

Definition error_message (e : Exc) : string :=
  "Error in daily automation: " +:+ exc_str e.

Definition error_record (now : DateTime) (e : Exc) : string :=
  str_datetime now +:+ ": " +:+ error_message e +:+ nl +:+ exc_str e.

(** Lines 42-88: the body of the [try]. *)
Definition automation_body (pe : ProcEnv) (g : Globals) (re : RunEnv)
  : M RunResult :=
  async_with
    (mcp_aenter (mcp_start_err re) "Codex CLI" "npx" ["-y"; "codex"; "mcp"]
                360000)
    mcp_aexit
    (fun codex_mcp_server =>
       print Stdout "✓ Codex MCP server started";;
       today ← datetime_now (clock pe);
       let automation_agent :=
         mkAgent "Daily Automation Agent"
                 (agent_instructions (strftime_date today) (DATE_STR g))
                 "gpt-5"
                 [codex_mcp_server] in
       print Stdout "⚙️  Running daily automation tasks...";;
       result ← Runner_run (service re) automation_agent
                  "Execute daily automation and generate comprehensive report"
                  20;
       print Stdout "✓ Daily automation completed";;
       print Stdout (nl +:+ "Final Output:" +:+ nl +:+ final_output result);;
       let summary_file := summary_path g in
       write_text (summary_write_err re) summary_file (final_output result);;
       print Stdout (nl +:+ "✓ Summary saved to " +:+ summary_file);;
       mret result).

(** Lines 90-97: the handler. *)
Definition automation_handler (pe : ProcEnv) (g : Globals) (re : RunEnv)
    (e : Exc) : M RunResult :=
  let error_msg := error_message e in
  print Stderr error_msg;;
  let error_file := error_path g in
  now ← datetime_now (clock pe);
  write_text (error_write_err re) error_file (error_record now e);;
  sys_exit 1.

(** Lines 35-97. *)
Definition run_daily_automation (pe : ProcEnv) (g : Globals) (re : RunEnv)
  : M RunResult :=
  now ← datetime_now (clock pe);
  print Stdout ("Starting daily automation at " +:+ str_datetime now);;
  try_except (automation_body pe g re) (automation_handler pe g re).

(** The script run as a program: module-level code, then lines 100-105. *)
Definition main (pe : ProcEnv) (re : RunEnv) : M unit :=
  g ← module_level pe;
  print Stdout (str_mul "=" 60);;
  print Stdout "Daily Codex Automation";;
  print Stdout (str_mul "=" 60);;
  run_daily_automation pe g re;;
  print Stdout (str_mul "=" 60).

(** The status the interpreter exits with: 0 at the end of the script, the
    argument of [sys.exit], 1 after an exception nobody caught. *)
Definition exit_status {A} (r : Res A) : Z :=
  match r with
  | Ok _ => 0
  | Raise _ => 1
  | SysExit c => c
  end.

(** A run of the program from an initial file system.  An exception that
    reaches the top makes the interpreter report it before it exits. *)
Definition run_program (pe : ProcEnv) (re : RunEnv) (f : gmap string Node)
  : Z * World :=
  match main pe re (world0 f) with
  | (Raise e, w) => (exit_status (Raise e : Res unit), emit (ETraceback e) w)
  | (r, w) => (exit_status r, w)
  end.

(** The script imported by a program that calls the coroutine twice: the
    module-level code runs once, at import. *)
Definition two_runs (pe : ProcEnv) (re1 re2 : RunEnv)
  : M (RunResult * RunResult) :=
  g ← module_level pe;
  r1 ← run_daily_automation pe g re1;
  r2 ← run_daily_automation pe g re2;
  mret (r1, r2).

(** ** Reading the trace *)

Definition is_write (e : Event) : option (string * string) :=
  match e with EWrite p c => Some (p, c) | _ => None end.

Definition printed_on (s : Stream) (e : Event) : option string :=
  match e, s with
  | EPrint Stdout t, Stdout => Some t
  | EPrint Stderr t, Stderr => Some t
  | _, _ => None
  end.

Definition is_submit (e : Event) : option Task :=
  match e with ESubmit t => Some t | _ => None end.

Definition is_spawn (e : Event) : option MCPServerStdio :=
  match e with ESpawn s => Some s | _ => None end.

Definition is_release (e : Event) : option MCPServerStdio :=
  match e with ERelease s => Some s | _ => None end.

Definition is_mkdir (e : Event) : option string :=
  match e with EMkdir p => Some p | _ => None end.

(** The files written, the lines printed on a stream, the tasks submitted,
    the tool providers started and released, in order. *)
Definition writes (t : list Event) : list (string * string) := omap is_write t.
Definition output (s : Stream) (t : list Event) : list string :=
  omap (printed_on s) t.
Definition submitted (t : list Event) : list Task := omap is_submit t.
Definition spawned (t : list Event) : list MCPServerStdio := omap is_spawn t.
Definition released (t : list Event) : list MCPServerStdio := omap is_release t.
Definition mkdirs (t : list Event) : list string := omap is_mkdir t.

(** ** Names used in the statements *)

(** A [datetime] whose fields are in the ranges of the type. *)
Definition well_formed (d : DateTime) : Prop :=
  year d < 10 ^ 4 /\ month d < 10 ^ 2 /\ day d < 10 ^ 2 /\
  hour d < 10 ^ 2 /\ minute d < 10 ^ 2 /\ second d < 10 ^ 2.

(** What the module-level code leaves behind when nothing stops it. *)
Definition output_dir : string := "daily-automation-output".

Definition credential_message : string :=
  "Error: OPENAI_API_KEY environment variable not set".

Definition install_hint : string :=
  "Error: Required packages not installed. Run: pip install openai openai-agents".

(** The configuration succeeds: the packages import, the output directory
    is there or can be created, and the credential is a non-empty string. *)
Definition configured (pe : ProcEnv) (f : gmap string Node) : Prop :=
  imports_ok pe = true /\
  (f !! output_dir = Some Dir \/
   (f !! output_dir = None /\ mkdir_err pe = None)) /\
  truthy (environ pe !! "OPENAI_API_KEY") = true.

Definition program_globals (pe : ProcEnv) : Globals :=
  mkGlobals output_dir (strftime_compact (clock pe 0))
            (environ pe !! "OPENAI_API_KEY").

Definition codex_server (n : nat) : MCPServerStdio :=
  mkServer "Codex CLI" "npx" ["-y"; "codex"; "mcp"] 360000 n.

(** The task the program submits: the third reading of the clock dates the
    instructions, the first one stamps the report name in them. *)
Definition program_task (pe : ProcEnv) : Task :=
  mkTask
    (mkAgent "Daily Automation Agent"
       (agent_instructions (strftime_date (clock pe 2))
                           (strftime_compact (clock pe 0)))
       "gpt-5" [codex_server 0])
    "Execute daily automation and generate comprehensive report" 20.

(** An exception [e] comes out of the tool-provider start-up, or the tool
    provider starts and [e] comes out of the hosted service call. *)
Definition raised_in_run (pe : ProcEnv) (re : RunEnv) (f : gmap string Node)
    (e : Exc) : Prop :=
  mcp_start_err re = Some e \/
  (mcp_start_err re = None /\
   exists f1,
     service re (program_task pe) (<[output_dir := Dir]> f) = (f1, inl e)).

(** The names of the program's two possible output files. *)
Definition program_summary_file (pe : ProcEnv) : string :=
  "daily-automation-output/summary-" +:+ strftime_compact (clock pe 0) +:+ ".txt".

Definition program_error_file (pe : ProcEnv) : string :=
  "daily-automation-output/error-" +:+ strftime_compact (clock pe 0) +:+ ".log".

(** The tool-invocation policy the instructions end on, and the line that
    names the report the agent is asked to write. *)
Definition tool_policy : string :=
  "Always call Codex MCP with {" +:+
  dq +:+ "approval-policy" +:+ dq +:+ ":" +:+ dq +:+ "never" +:+ dq +:+ "," +:+
  dq +:+ "sandbox" +:+ dq +:+ ":" +:+ dq +:+ "workspace-write" +:+ dq +:+ "}.".

Definition report_line (stamp : string) : string :=
  "Save all outputs to ./daily-automation-output/report-" +:+ stamp +:+ ".md".


(** What reaches the error stream: the script's own prints to [sys.stderr]
    and the interpreter's report of an exception nobody caught. *)
Definition on_error_stream (e : Event) : option Event :=
  match e with
  | EPrint Stderr _ => Some e
  | ETraceback _ => Some e
  | _ => None
  end.

Definition error_stream (t : list Event) : list Event :=
  omap on_error_stream t.

(** ** Sample inputs *)

Definition sample_clock (n : nat) : DateTime :=
  mkDateTime 2026 11 3 9 5 (7 + n) 0.

Definition sample_proc : ProcEnv :=
  mkProcEnv true {["OPENAI_API_KEY" := "sk-test"]} sample_clock None.

Definition sample_proc_no_key : ProcEnv :=
  mkProcEnv true ∅ sample_clock None.

Definition sample_proc_no_packages : ProcEnv :=
  mkProcEnv false {["OPENAI_API_KEY" := "sk-test"]} sample_clock None.

Definition answers (out : string) : RunEnv :=
  mkRunEnv None (fun _ f => (f, inr out)) None None.

Definition boom : Exc := mkExc "RuntimeError" "boom".

Definition start_fails : RunEnv :=
  mkRunEnv (Some boom) (fun _ f => (f, inr "unused")) None None.

Definition service_fails : RunEnv :=
  mkRunEnv None (fun _ f => (f, inl boom)) None None.

Definition summary_write_fails : RunEnv :=
  mkRunEnv None (fun _ f => (f, inr "report"))
           (Some (mkExc "PermissionError" "denied")) None.

(** * Properties *)

(** ** Strings *)

Section Strings.

Lemma append_cons (x : ascii) (a b : string) :
  String x a +:+ b = String x (a +:+ b).
Proof. reflexivity. Qed.

Lemma append_nil_l (a : string) : EmptyString +:+ a = a.
Proof. reflexivity. Qed.

Lemma append_assoc (a b c : string) : (a +:+ b) +:+ c = a +:+ b +:+ c.
Proof.
  induction a as [|x a IH]; [reflexivity|].
  rewrite !append_cons. now f_equal.
Qed.


Lemma append_length (a b : string) :
  String.length (a +:+ b) = String.length a + String.length b.
Proof.
  induction a as [|x a IH]; [reflexivity|].
  rewrite append_cons. simpl. now rewrite IH.
Qed.

(** Two concatenations whose first parts have the same length agree part
    by part. *)
Lemma append_inj_length (a b x y : string) :
  String.length a = String.length b ->
  a +:+ x = b +:+ y -> a = b /\ x = y.
Proof.
  revert b; induction a as [|c a IH]; intros [|d b] Hlen Heq;
    rewrite ?append_cons, ?append_nil_l in Heq; simpl in Hlen;
    try discriminate.
  - auto.
  - injection Heq as -> Heq. destruct (IH b) as [-> ->]; auto.
Qed.

Lemma append_inj_r (a b s : string) : a +:+ s = b +:+ s -> a = b.
Proof.
  intros Heq. apply (append_inj_length a b s s); [|exact Heq].
  apply (f_equal String.length) in Heq. rewrite !append_length in Heq. lia.
Qed.



Lemma contains_append_r (s q t : string) : contains s t -> contains (s +:+ q) t.
Proof.
  intros (a & b & ->). exists a, (b +:+ q). now rewrite !append_assoc.
Qed.

Lemma zpad_length (w n : nat) : String.length (zpad w n) = w.
Proof.
  revert n; induction w as [|w IH]; intros n; simpl; [reflexivity|].
  rewrite append_length, IH. simpl. lia.
Qed.

Lemma digit_inj (n m : nat) : digit n = digit m -> n mod 10 = m mod 10.
Proof.
  unfold digit. intros H.
  assert (Hn : n mod 10 < 10) by (apply Nat.mod_upper_bound; lia).
  assert (Hm : m mod 10 < 10) by (apply Nat.mod_upper_bound; lia).
  apply (f_equal nat_of_ascii) in H.
  rewrite !nat_ascii_embedding in H by lia. lia.
Qed.

(** Below [10^w] the padded rendering determines the number. *)
Lemma zpad_inj (w n m : nat) :
  n < 10 ^ w -> m < 10 ^ w -> zpad w n = zpad w m -> n = m.
Proof.
  revert n m; induction w as [|w IH]; intros n m Hn Hm H.
  - simpl in *. lia.
  - simpl zpad in H.
    apply append_inj_length in H as [Hhi Hlo]; [|now rewrite !zpad_length].
    injection Hlo as Hlo. apply digit_inj in Hlo.
    assert (Hq : n / 10 = m / 10).
    { apply IH; [| |exact Hhi];
        apply Nat.Div0.div_lt_upper_bound; rewrite Nat.pow_succ_r' in *; lia. }
    rewrite (Nat.div_mod_eq n 10), (Nat.div_mod_eq m 10). lia.
Qed.

(** The compact timestamp tells apart any two instants that differ in a
    field down to the second, and nothing finer. *)
Lemma strftime_compact_inj (d1 d2 : DateTime) :
  well_formed d1 -> well_formed d2 ->
  strftime_compact d1 = strftime_compact d2 ->
  year d1 = year d2 /\ month d1 = month d2 /\ day d1 = day d2 /\
  hour d1 = hour d2 /\ minute d1 = minute d2 /\ second d1 = second d2.
Proof.
  intros (Hy1 & Hm1 & Hd1 & Hh1 & Hi1 & Hs1) (Hy2 & Hm2 & Hd2 & Hh2 & Hi2 & Hs2).
  unfold strftime_compact. intros H.
  apply append_inj_length in H as [Hy H]; [|now rewrite !zpad_length].
  apply append_inj_length in H as [Hm H]; [|now rewrite !zpad_length].
  apply append_inj_length in H as [Hd H]; [|now rewrite !zpad_length].
  apply append_inj_length in H as [_ H]; [|reflexivity].
  apply append_inj_length in H as [Hh H]; [|now rewrite !zpad_length].
  apply append_inj_length in H as [Hi Hs]; [|now rewrite !zpad_length].
  repeat split; eapply zpad_inj; eassumption.
Qed.

End Strings.

(** ** Running the script symbolically *)

Ltac exec :=
  cbv beta iota zeta delta
    [run_program two_runs main run_daily_automation automation_body
     automation_handler module_level try_except async_with mbind M_bind mret
     M_ret print datetime_now os_getenv mkdir_exist_ok write_text
     set_default_openai_api mcp_aenter mcp_aexit Runner_run raise sys_exit
     emit set_fs world0 fs live ticks next_id trace Path truthy default
     exit_status imports_ok environ clock mkdir_err
     mcp_start_err service summary_write_err error_write_err
     final_output srv_id fst snd].

(** Case analysis on the answer of every service call in the goal. *)
Ltac split_service :=
  repeat match goal with
         | |- context [?svc ?t ?f] =>
             match type of (svc t f) with
             | (gmap string Node * (Exc + string))%type =>
                 let E := fresh "Hsvc" in
                 destruct (svc t f) as [? [?|?]] eqn:E
             end
         end.

(** Projections of a trace built by successive [emit]s. *)
Ltac read_trace :=
  unfold writes, output, submitted, spawned, released, mkdirs;
  rewrite ?omap_app;
  cbn [omap list_omap is_write printed_on is_submit is_spawn is_release
       is_mkdir app].

(** The names of the statements, unfolded. *)
Ltac unfold_names :=
  unfold configured, raised_in_run, program_task, program_globals,
    program_summary_file, program_error_file, codex_server, output_dir,
    credential_message, install_hint in *.

(** ** The success path *)

(** On every run that ends successfully (exit status 0) the hosted
    service call returned a final output [out]; exactly one task was
    submitted and exactly one file was written, named
    [summary-<timestamp>.txt] under the output directory with the
    timestamp taken when the program started, and it holds [out] itself,
    with nothing added, removed or changed. *)
Theorem summary_written_on_success pe re f w :
  run_program pe re f = (0%Z, w) ->
  let p := "daily-automation-output/summary-" +:+
           strftime_compact (clock pe 0) +:+ ".txt" in
  exists t f0 f1 out,
    service re t f0 = (f1, inr out) /\
    submitted (trace w) = [t] /\
    writes (trace w) = [(p, out)] /\
    fs w !! p = Some (File out).
Proof.
  destruct pe as [imp env clk mk], re as [ms svc sw ew].
  exec.
  destruct imp; [|discriminate].
  destruct (f !! "daily-automation-output") as [[|c]|] eqn:Hdir;
    destruct mk as [e1|]; try discriminate;
    destruct (env !! "OPENAI_API_KEY") as [[|a k]|] eqn:Hkey; try discriminate;
    destruct ms as [e2|]; try (destruct ew; discriminate);
    split_service; try (destruct ew; discriminate);
    destruct sw as [e3|]; try (destruct ew; discriminate).
  all: intros H; injection H as <-.
  all: eexists _, _, _, _; split; [eassumption|].
  all: exec; read_trace.
  all: repeat split; apply lookup_insert_eq.
Qed.

Lemma summary_written_on_success_witness :
  run_program sample_proc (answers "report") ∅ =
    (0%Z, snd (run_program sample_proc (answers "report") ∅)) /\
  exists t f0 f1 out,
    service (answers "report") t f0 = (f1, inr out) /\
    submitted (trace (snd (run_program sample_proc (answers "report") ∅))) = [t] /\
    writes (trace (snd (run_program sample_proc (answers "report") ∅))) =
      [("daily-automation-output/summary-20261103_090507.txt", out)] /\
    fs (snd (run_program sample_proc (answers "report") ∅))
      !! "daily-automation-output/summary-20261103_090507.txt" = Some (File out).
Proof.
  split; [reflexivity|].
  apply (summary_written_on_success sample_proc (answers "report") ∅).
  reflexivity.
Defined.

(** The content written on the sample run is the service's answer. *)
Example sample_summary :
  writes (trace (snd (run_program sample_proc (answers "report") ∅))) =
    [("daily-automation-output/summary-20261103_090507.txt", "report")].
Proof. reflexivity. Qed.

(** Conversely, a configured run whose tool provider starts, whose service
    call returns [out] and whose summary can be written does end with
    status 0, having written [out] and nothing else. *)
Lemma service_answer_is_saved pe re f f1 out :
  configured pe f ->
  mcp_start_err re = None ->
  service re (program_task pe) (<[output_dir := Dir]> f) = (f1, inr out) ->
  summary_write_err re = None ->
  exists w,
    run_program pe re f = (0%Z, w) /\
    writes (trace w) = [(program_summary_file pe, out)] /\
    fs w = <[program_summary_file pe := File out]> f1 /\
    output Stderr (trace w) = [].
Proof.
  destruct pe as [imp env clk mk], re as [ms svc sw ew].
  unfold_names. cbn [imports_ok environ clock mkdir_err mcp_start_err service
                     summary_write_err].
  intros (-> & Hdir & Hkey) -> Hsvc ->.
  revert Hkey. exec. cbn [DATE_STR].
  destruct (env !! "OPENAI_API_KEY") as [[|a k]|]; try discriminate.
  intros _.
  destruct Hdir as [Hd | [Hd ->]];
    rewrite ?(insert_id _ _ _ Hd) in *;
    rewrite Hd; exec; cbn [DATE_STR]; rewrite Hsvc.
  all: eexists; split; [reflexivity|]; exec; read_trace.
  all: repeat split.
Qed.

(** C1 (counterexample).  The hosted service call returns the final
    output ["report"] without raising, and still no summary is written:
    the write of the summary raises, the run ends with status 1, the only
    file it writes is the error log, and nothing stands at the summary's
    path. *)
Lemma service_answer_not_saved_when_write_fails :
  let r := run_program sample_proc summary_write_fails ∅ in
  mcp_start_err summary_write_fails = None /\
  submitted (trace (snd r)) = [program_task sample_proc] /\
  service summary_write_fails (program_task sample_proc)
    (<[output_dir := Dir]> ∅) = (<[output_dir := Dir]> ∅, inr "report") /\
  fst r = 1%Z /\
  writes (trace (snd r)) =
    [("daily-automation-output/error-20261103_090507.log",
      "2026-11-03 09:05:10: Error in daily automation: denied" +:+ nl +:+
      "denied")] /\
  fs (snd r) !! program_summary_file sample_proc = None.
Proof. repeat split. Qed.

(** C1 (amended).  On every run in which the hosted service call, made with
    the run's one task, returns a final output [out] without raising and
    the write of the summary does not raise, the run ends with status 0,
    exactly one file is written, [summary-<timestamp>.txt] under the output
    directory with the timestamp taken when the program started, and its
    content is [out] itself, with nothing added, removed or changed. *)
Theorem summary_holds_the_final_output pe re f f1 out :
  configured pe f ->
  mcp_start_err re = None ->
  service re (program_task pe) (<[output_dir := Dir]> f) = (f1, inr out) ->
  summary_write_err re = None ->
  exists w,
    run_program pe re f = (0%Z, w) /\
    submitted (trace w) = [program_task pe] /\
    writes (trace w) =
      [("daily-automation-output/summary-" +:+
          strftime_compact (clock pe 0) +:+ ".txt", out)] /\
    fs w !! ("daily-automation-output/summary-" +:+
               strftime_compact (clock pe 0) +:+ ".txt") = Some (File out) /\
    fs w = <[program_summary_file pe := File out]> f1.
Proof.
  destruct pe as [imp env clk mk], re as [ms svc sw ew].
  unfold_names. cbn [imports_ok environ clock mkdir_err mcp_start_err service
                     summary_write_err].
  intros (-> & Hdir & Hkey) -> Hsvc ->.
  revert Hkey. exec. cbn [DATE_STR].
  destruct (env !! "OPENAI_API_KEY") as [[|a k]|]; try discriminate.
  intros _.
  destruct Hdir as [Hd | [Hd ->]];
    rewrite ?(insert_id _ _ _ Hd) in *;
    rewrite Hd; exec; cbn [DATE_STR]; rewrite Hsvc.
  all: eexists; split; [reflexivity|]; exec; cbn [DATE_STR]; read_trace.
  all: repeat split; apply lookup_insert_eq.
Qed.

Lemma summary_holds_the_final_output_witness :
  configured sample_proc ∅ /\
  mcp_start_err (answers "report") = None /\
  service (answers "report") (program_task sample_proc)
    (<[output_dir := Dir]> ∅) = (<[output_dir := Dir]> ∅, inr "report") /\
  summary_write_err (answers "report") = None /\
  exists w,
    run_program sample_proc (answers "report") ∅ = (0%Z, w) /\
    submitted (trace w) = [program_task sample_proc] /\
    writes (trace w) =
      [("daily-automation-output/summary-" +:+
          strftime_compact (clock sample_proc 0) +:+ ".txt", "report")] /\
    fs w !! ("daily-automation-output/summary-" +:+
               strftime_compact (clock sample_proc 0) +:+ ".txt")
      = Some (File "report") /\
    fs w = <[program_summary_file sample_proc := File "report"]>
             (<[output_dir := Dir]> ∅).
Proof.
  assert (Hc : configured sample_proc ∅)
    by (split; [reflexivity | split; [right; split; reflexivity | reflexivity]]).
  split; [exact Hc | split; [reflexivity | split; [reflexivity
                                                 | split; [reflexivity|]]]].
  exact (summary_holds_the_final_output sample_proc (answers "report") ∅ _ _
           Hc eq_refl eq_refl eq_refl).
Defined.

(** ** Configuration errors *)

(** C2. When the credential variable is unset or empty the program exits
    with status 1, writes no file (the files on disk are those that were
    there), starts no tool-provider process and submits nothing to the
    hosted service. *)
Theorem missing_credential_exits_1 pe re f st w :
  environ pe !! "OPENAI_API_KEY" = None \/
  environ pe !! "OPENAI_API_KEY" = Some EmptyString ->
  run_program pe re f = (st, w) ->
  st = 1%Z /\
  writes (trace w) = [] /\
  spawned (trace w) = [] /\
  submitted (trace w) = [] /\
  live w = ∅ /\
  (forall p c, fs w !! p = Some (File c) <-> f !! p = Some (File c)).
Proof.
  destruct pe as [imp env clk mk], re as [ms svc sw ew].
  exec. intros Hkey.
  assert (Hk : truthy (env !! "OPENAI_API_KEY") = false)
    by (destruct Hkey as [-> | ->]; reflexivity).
  unfold truthy in Hk.
  destruct imp;
    [destruct (f !! "daily-automation-output") as [[|c]|] eqn:Hdir;
       [|destruct mk as [e1|]..];
       destruct (env !! "OPENAI_API_KEY") as [[|a k]|]; try discriminate|].
  all: intros H; injection H as <- <-; exec; read_trace.
  all: repeat split; auto.
  all: try (intros Hp; destruct (decide (p = "daily-automation-output"))
              as [->|Hne];
            [rewrite ?lookup_insert_eq in *; congruence
            |rewrite ?lookup_insert_ne in * by congruence; exact Hp]).
Qed.

Lemma missing_credential_exits_1_witness :
  (environ sample_proc_no_key !! "OPENAI_API_KEY" = None \/
   environ sample_proc_no_key !! "OPENAI_API_KEY" = Some EmptyString) /\
  let st := fst (run_program sample_proc_no_key (answers "report") ∅) in
  let w := snd (run_program sample_proc_no_key (answers "report") ∅) in
  st = 1%Z /\
  writes (trace w) = [] /\
  spawned (trace w) = [] /\
  submitted (trace w) = [] /\
  live w = ∅ /\
  (forall p c, fs w !! p = Some (File c) <-> (∅ : gmap string Node) !! p = Some (File c)).
Proof.
  split; [left; reflexivity|].
  apply (missing_credential_exits_1 sample_proc_no_key (answers "report") ∅);
    [left; reflexivity | apply surjective_pairing].
Defined.

(** C5 (evaluation).  With the credential absent the diagnostic is printed
    on standard output and nothing at all reaches the error stream. *)
Lemma credential_message_on_stdout :
  let r := run_program sample_proc_no_key (answers "report") ∅ in
  fst r = 1%Z /\
  output Stdout (trace (snd r)) = [credential_message] /\
  output Stderr (trace (snd r)) = [].
Proof. repeat split. Qed.

(** The same on every run that reaches the credential check. *)
Lemma credential_message_stream pe re f st w :
  imports_ok pe = true ->
  truthy (environ pe !! "OPENAI_API_KEY") = false ->
  run_program pe re f = (st, w) ->
  output Stderr (trace w) = [] /\
  (st = 1%Z /\ output Stdout (trace w) = [credential_message] \/
   exists e, trace w = [ETraceback e]).
Proof.
  destruct pe as [imp env clk mk], re as [ms svc sw ew].
  exec. intros -> Hk.
  destruct (f !! "daily-automation-output") as [[|c]|] eqn:Hdir;
    [|destruct mk as [e1|]..];
    destruct (env !! "OPENAI_API_KEY") as [[|a k]|]; try discriminate.
  all: intros H; injection H as <- <-; exec; read_trace.
  all: split; [reflexivity|]; eauto.
Qed.

(** C8. A run that ends on the missing-credential message has status 1 and
    leaves the output directory on disk: it was created, if it was
    missing, before the message was printed, and nothing else happened. *)
Theorem output_dir_created_before_credential_check pe re f st w :
  run_program pe re f = (st, w) ->
  last (trace w) = Some (EPrint Stdout credential_message) ->
  st = 1%Z /\
  fs w !! output_dir = Some Dir /\
  trace w =
    match f !! output_dir with
    | None => [EMkdir output_dir]
    | Some _ => []
    end ++ [EPrint Stdout credential_message].
Proof.
  destruct pe as [imp env clk mk], re as [ms svc sw ew].
  unfold output_dir, credential_message. exec.
  destruct imp;
    [destruct (f !! "daily-automation-output") as [[|c]|] eqn:Hdir;
       [|destruct mk as [e1|]..];
       destruct (env !! "OPENAI_API_KEY") as [[|a k]|];
       try (destruct ms as [e2|]; split_service;
            try destruct sw as [e3|]; destruct ew as [e4|])|].
  all: intros H; injection H as <- <-; exec.
  all: rewrite ?last_snoc; intros Hlast.
  all: try discriminate Hlast.
  all: try (exfalso; injection Hlast as Hlast; vm_compute in Hlast;
            discriminate Hlast).
  all: repeat split; first [assumption | apply lookup_insert_eq].
Qed.

Lemma output_dir_created_before_credential_check_witness :
  let r := run_program sample_proc_no_key (answers "report") ∅ in
  last (trace (snd r)) = Some (EPrint Stdout credential_message) /\
  fst r = 1%Z /\
  fs (snd r) !! output_dir = Some Dir /\
  trace (snd r) = [EMkdir output_dir; EPrint Stdout credential_message].
Proof.
  split; [reflexivity|].
  exact (output_dir_created_before_credential_check
           sample_proc_no_key (answers "report") ∅ _ _
           (surjective_pairing _) eq_refl).
Defined.

(** The directory is made before the environment is consulted even when
    the credential is present, and making it twice is harmless. *)
Lemma mkdir_idempotent err p w w1 :
  mkdir_exist_ok err p w = (Ok tt, w1) ->
  mkdir_exist_ok err p w1 = (Ok tt, w1).
Proof.
  destruct w as [f l t n tr]. exec.
  destruct (f !! p) as [[|c]|] eqn:Hp; [|discriminate|destruct err; [discriminate|]].
  - intros H; injection H as <-. exec. now rewrite Hp.
  - intros H; injection H as <-. exec. now rewrite lookup_insert_eq.
Qed.

(** C10. When the agent packages cannot be imported the program prints the
    installation hint on standard output and exits with status 1; that
    print is all it does: no directory is made, no file written, the file
    system is the one it found. *)
Theorem import_failure_exits_early pe re f st w :
  imports_ok pe = false ->
  run_program pe re f = (st, w) ->
  st = 1%Z /\
  trace w = [EPrint Stdout install_hint] /\
  fs w = f.
Proof.
  destruct pe as [imp env clk mk], re as [ms svc sw ew].
  exec. intros ->. intros H; injection H as <- <-. exec. auto.
Qed.

Lemma import_failure_exits_early_witness :
  imports_ok sample_proc_no_packages = false /\
  let r := run_program sample_proc_no_packages (answers "report") ∅ in
  fst r = 1%Z /\
  trace (snd r) = [EPrint Stdout install_hint] /\
  fs (snd r) = ∅.
Proof.
  split; [reflexivity|].
  apply (import_failure_exits_early sample_proc_no_packages (answers "report") ∅);
    [reflexivity | apply surjective_pairing].
Defined.

(** ** Output file names *)

Lemma summary_path_eq g :
  summary_path g = OUTPUT_DIR g +:+ "/summary-" +:+ DATE_STR g +:+ ".txt".
Proof. reflexivity. Qed.

Lemma error_path_eq g :
  error_path g = OUTPUT_DIR g +:+ "/error-" +:+ DATE_STR g +:+ ".log".
Proof. reflexivity. Qed.

(** In one directory a summary and an error log never share a name. *)
Lemma summary_path_not_error_path g g' :
  OUTPUT_DIR g = OUTPUT_DIR g' -> summary_path g <> error_path g'.
Proof.
  rewrite summary_path_eq, error_path_eq. intros -> H.
  apply (inj (String.app _)) in H. discriminate H.
Qed.

(** In one directory the name of a summary determines its timestamp, and
    so does the name of an error log. *)
Lemma summary_path_inj g g' :
  OUTPUT_DIR g = OUTPUT_DIR g' ->
  summary_path g = summary_path g' -> DATE_STR g = DATE_STR g'.
Proof.
  rewrite !summary_path_eq. intros -> H.
  apply (inj (String.app _)) in H.
  apply (inj (String.app "/summary-")) in H.
  now apply append_inj_r in H.
Qed.

Lemma error_path_inj g g' :
  OUTPUT_DIR g = OUTPUT_DIR g' ->
  error_path g = error_path g' -> DATE_STR g = DATE_STR g'.
Proof.
  rewrite !error_path_eq. intros -> H.
  apply (inj (String.app _)) in H.
  apply (inj (String.app "/error-")) in H.
  now apply append_inj_r in H.
Qed.

(** ** The error record *)



Lemma error_message_nonempty e : error_message e <> EmptyString.
Proof. discriminate. Qed.


(** ** The error path *)



(** The two ways into the handler, run on the samples. *)
Example sample_start_failure :
  let r := run_program sample_proc start_fails ∅ in
  fst r = 1%Z /\
  output Stderr (trace (snd r)) = ["Error in daily automation: boom"] /\
  writes (trace (snd r)) =
    [("daily-automation-output/error-20261103_090507.log",
      "2026-11-03 09:05:09: Error in daily automation: boom" +:+ nl +:+ "boom")].
Proof. repeat split. Qed.

Example sample_service_failure :
  let r := run_program sample_proc service_fails ∅ in
  fst r = 1%Z /\
  output Stderr (trace (snd r)) = ["Error in daily automation: boom"] /\
  writes (trace (snd r)) =
    [("daily-automation-output/error-20261103_090507.log",
      "2026-11-03 09:05:10: Error in daily automation: boom" +:+ nl +:+ "boom")] /\
  spawned (trace (snd r)) = released (trace (snd r)).
Proof. repeat split. Qed.



Example sample_summary_write_failure :
  let r := run_program sample_proc summary_write_fails ∅ in
  fst r = 1%Z /\
  output Stderr (trace (snd r)) = ["Error in daily automation: denied"] /\
  writes (trace (snd r)) =
    [("daily-automation-output/error-20261103_090507.log",
      "2026-11-03 09:05:10: Error in daily automation: denied" +:+ nl +:+
      "denied")] /\
  fs (snd r) !! "daily-automation-output/summary-20261103_090507.txt" = None.
Proof. repeat split. Qed.

(** ** The tool provider *)

(** C4. However the program ends (normally, by [sys.exit] in the handler,
    or on an exception that escapes), no tool-provider process is running
    at the end: the run starts at most one, each one it starts it also
    releases, and the release comes after the start and before the end of
    the program. *)
Theorem tool_provider_released pe re f :
  let w := snd (run_program pe re f) in
  live w = ∅ /\
  released (trace w) = spawned (trace w) /\
  (spawned (trace w) = [] \/ spawned (trace w) = [codex_server 0]) /\
  (forall srv, srv ∈ spawned (trace w) ->
     exists pre post,
       trace w = pre ++ ESpawn srv :: post /\ ERelease srv ∈ post).
Proof.
  destruct pe as [imp env clk mk], re as [ms svc sw ew].
  unfold_names. exec.
  destruct imp;
    [destruct (f !! "daily-automation-output") as [[|c]|] eqn:Hdir;
       [|destruct mk as [e1|]..];
       destruct (env !! "OPENAI_API_KEY") as [[|a k]|];
       try (destruct ms as [e2|]; split_service;
            try destruct sw as [e3|]; destruct ew as [e4|])|].
  all: exec; read_trace.
  all: split; [set_solver | split; [reflexivity | split; [auto|]]].
  all: intros srv Hsrv; inversion Hsrv as [|? ? ? Hnil]; subst;
    try (inversion Hnil; fail).
  all: first [eexists [_; _; _; _; _], _; split; [reflexivity|]
             |eexists [_; _; _; _; _; _], _; split; [reflexivity|]].
  all: repeat first [apply list_elem_of_here | apply list_elem_of_further].
Qed.

(** The same for the coroutine called from any state, as a library would:
    the tool providers running afterwards are those that ran before. *)
Lemma run_leaves_no_provider pe g re w0 r w :
  run_daily_automation pe g re w0 = (r, w) ->
  next_id w0 ∉ live w0 ->
  live w = live w0.
Proof.
  destruct pe as [imp env clk mk], re as [ms svc sw ew], w0 as [f l t n tr].
  exec.
  destruct ms as [e2|]; split_service; try destruct sw as [e3|];
    destruct ew as [e4|].
  all: intros H; injection H as <- <-; exec; intros Hn; try reflexivity.
  all: apply set_eq; intros x.
  all: rewrite elem_of_difference, elem_of_union, elem_of_singleton.
  all: split; [tauto | intros Hx; split; [tauto | congruence]].
Qed.

(** The three kinds of exit after the tool provider has started. *)
Example sample_release_on_success :
  let r := run_program sample_proc (answers "report") ∅ in
  fst r = 0%Z /\
  spawned (trace (snd r)) = [codex_server 0] /\
  released (trace (snd r)) = [codex_server 0].
Proof. repeat split. Qed.

Example sample_release_on_task_error :
  let r := run_program sample_proc service_fails ∅ in
  fst r = 1%Z /\
  spawned (trace (snd r)) = [codex_server 0] /\
  released (trace (snd r)) = [codex_server 0].
Proof. repeat split. Qed.

Example sample_release_on_escaping_exception :
  let re := mkRunEnv None (fun _ f => (f, inl boom)) None
                     (Some (mkExc "OSError" "disk full")) in
  let r := run_program sample_proc re ∅ in
  fst r = 1%Z /\
  last (trace (snd r)) = Some (ETraceback (mkExc "OSError" "disk full")) /\
  spawned (trace (snd r)) = [codex_server 0] /\
  released (trace (snd r)) = [codex_server 0].
Proof. repeat split. Qed.

(** ** The hosted service call *)

(** C7 (counterexample).  The run without a credential submits no task. *)
Lemma no_task_without_credential :
  submitted (trace (snd (run_program sample_proc_no_key
                            (answers "report") ∅))) = [].
Proof. reflexivity. Qed.

(** Nor does the run whose tool provider fails to start. *)
Example no_task_without_tool_provider :
  submitted (trace (snd (run_program sample_proc start_fails ∅))) = [].
Proof. reflexivity. Qed.

(** C7 (amended).  A run submits at most one task.  A task it submits is
    passed the model identifier [gpt-5], a tool list holding exactly the
    tool provider this run started, and a maximum turn count of 20.  A run
    whose configuration succeeds and whose tool provider starts submits
    exactly one. *)
Theorem at_most_one_task pe re f :
  let t := trace (snd (run_program pe re f)) in
  (submitted t = [] \/
   exists task srv,
     submitted t = [task] /\
     spawned t = [srv] /\
     model (task_agent task) = "gpt-5" /\
     mcp_servers (task_agent task) = [srv] /\
     max_turns task = 20%Z) /\
  (configured pe f -> mcp_start_err re = None ->
   submitted t = [program_task pe]).
Proof.
  destruct pe as [imp env clk mk], re as [ms svc sw ew].
  unfold_names.
  cbn [imports_ok environ clock mkdir_err mcp_start_err].
  exec. cbn [DATE_STR].
  destruct imp;
    [destruct (f !! "daily-automation-output") as [[|c]|] eqn:Hdir;
       [|destruct mk as [e1|]..];
       destruct (env !! "OPENAI_API_KEY") as [[|a k]|];
       try (destruct ms as [e2|]; split_service;
            try destruct sw as [e3|]; destruct ew as [e4|])|].
  all: exec; cbn [DATE_STR]; read_trace.
  all: split;
    [first [left; reflexivity
           |right; eexists _, _; repeat split; reflexivity]|].
  all: intros (Hi & Hd & Hk) Hm; try discriminate;
    try (destruct Hd as [Hd|[Hd ?]]; discriminate).
  all: reflexivity.
Qed.

Lemma at_most_one_task_witness :
  configured sample_proc ∅ /\
  mcp_start_err (answers "report") = None /\
  submitted (trace (snd (run_program sample_proc (answers "report") ∅))) =
    [program_task sample_proc].
Proof.
  assert (Hc : configured sample_proc ∅)
    by (split; [reflexivity | split; [right; split; reflexivity | reflexivity]]).
  split; [exact Hc | split; [reflexivity|]].
  exact (proj2 (at_most_one_task sample_proc (answers "report") ∅) Hc eq_refl).
Defined.

(** The arguments of the call on the sample run. *)
Example sample_task :
  let t := program_task sample_proc in
  model (task_agent t) = "gpt-5" /\
  mcp_servers (task_agent t) = [codex_server 0] /\
  max_turns t = 20%Z /\
  client_session_timeout_seconds (codex_server 0) = 360000%Z.
Proof. repeat split. Qed.

(** ** Timestamps and output files across runs *)

(** The timestamp in the file names is read from the clock once, by the
    module-level code. *)
Lemma module_level_globals pe w0 g w :
  module_level pe w0 = (Ok g, w) ->
  OUTPUT_DIR g = output_dir /\
  DATE_STR g = strftime_compact (clock pe (ticks w0)).
Proof.
  destruct pe as [imp env clk mk], w0 as [f l t n tr]. exec.
  destruct imp; [|discriminate].
  destruct (f !! "daily-automation-output") as [[|c]|];
    [|discriminate|destruct mk; [discriminate|]];
    destruct (env !! "OPENAI_API_KEY") as [[|a k]|]; try discriminate;
    intros H; injection H as <- _; auto.
Qed.

(** C6 (counterexample).  Two runs in one process, begun at different
    seconds: both name the summary by the process's timestamp, and the
    second overwrites what the first wrote. *)
Lemma second_run_overwrites_first :
  let r := two_runs sample_proc (answers "first") (answers "second")
                    (world0 ∅) in
  let p := "daily-automation-output/summary-20261103_090507.txt" in
  fst r = Ok (mkRunResult "first", mkRunResult "second") /\
  writes (trace (snd r)) = [(p, "first"); (p, "second")] /\
  fs (snd r) !! p = Some (File "second") /\
  output Stdout (trace (snd r)) !! 0 =
    Some "Starting daily automation at 2026-11-03 09:05:08" /\
  output Stdout (trace (snd r)) !! 6 =
    Some "Starting daily automation at 2026-11-03 09:05:10".
Proof. repeat split. Qed.

(** Names stamped differently are different names. *)
Lemma other_stamp_other_files g g' p :
  OUTPUT_DIR g' = OUTPUT_DIR g ->
  DATE_STR g' <> DATE_STR g ->
  p = summary_path g \/ p = error_path g ->
  p <> summary_path g' /\ p <> error_path g'.
Proof.
  intros Hdir Hstamp [-> | ->]; split; intros H.
  - apply Hstamp. symmetry. now apply summary_path_inj.
  - now apply (summary_path_not_error_path g g').
  - symmetry in H. now apply (summary_path_not_error_path g' g).
  - apply Hstamp. symmetry. now apply error_path_inj.
Qed.

(** A run writes at most one file, and only under one of its two names. *)
Lemma run_writes_own_files pe g re w0 r w :
  run_daily_automation pe g re w0 = (r, w) ->
  exists evs,
    trace w = trace w0 ++ evs /\
    forall p c, (p, c) ∈ writes evs -> p = summary_path g \/ p = error_path g.
Proof.
  destruct pe as [imp env clk mk], re as [ms svc sw ew], w0 as [f l t n tr].
  exec.
  destruct ms as [e2|]; split_service; try destruct sw as [e3|];
    destruct ew as [e4|].
  all: intros H; injection H as <- <-; exec.
  all: rewrite <- ?app_assoc; cbn [app].
  all: eexists; split; [reflexivity|].
  all: read_trace; intros p c Hp.
  all: inversion Hp as [|? ? ? Hq]; subst; auto; inversion Hq.
Qed.

(** The script never reads a file: what a run returns and what it does
    depend on the file system it starts from only through the answer of
    the hosted service. *)
Lemma run_ignores_files pe g re w0 f2 :
  (forall t, snd (service re t f2) = snd (service re t (fs w0))) ->
  fst (run_daily_automation pe g re (set_fs f2 w0)) =
    fst (run_daily_automation pe g re w0) /\
  trace (snd (run_daily_automation pe g re (set_fs f2 w0))) =
    trace (snd (run_daily_automation pe g re w0)).
Proof.
  destruct pe as [imp env clk mk], re as [ms svc sw ew], w0 as [f l t n tr].
  cbn [service fs]. intros H. exec.
  destruct ms as [e2|]; [destruct ew; auto|].
  match goal with |- context [svc ?t f2] => specialize (H t) end.
  split_service; cbn [snd] in H; simplify_eq;
    try destruct sw as [e3|]; destruct ew as [e4|]; auto.
Qed.

(** C6 (amended).  Every run names its output file, summary or error log,
    with the timestamp the module-level code read when the program
    started; a run writes under no name stamped otherwise, so it never
    overwrites the output of a run with a different timestamp; and it
    never reads a file back. *)
Theorem output_files_named_by_start_timestamp pe g re w0 r w :
  run_daily_automation pe g re w0 = (r, w) ->
  exists evs,
    trace w = trace w0 ++ evs /\
    (forall p c, (p, c) ∈ writes evs ->
       p = OUTPUT_DIR g +:+ "/summary-" +:+ DATE_STR g +:+ ".txt" \/
       p = OUTPUT_DIR g +:+ "/error-" +:+ DATE_STR g +:+ ".log") /\
    (forall g' p c,
       OUTPUT_DIR g' = OUTPUT_DIR g -> DATE_STR g' <> DATE_STR g ->
       (p, c) ∈ writes evs ->
       p <> summary_path g' /\ p <> error_path g') /\
    (forall f2,
       (forall t, snd (service re t f2) = snd (service re t (fs w0))) ->
       fst (run_daily_automation pe g re (set_fs f2 w0)) = r /\
       trace (snd (run_daily_automation pe g re (set_fs f2 w0))) = trace w).
Proof.
  intros Hrun.
  destruct (run_writes_own_files _ _ _ _ _ _ Hrun) as (evs & Htr & Hown).
  exists evs. split; [exact Htr|]. split; [exact Hown|]. split.
  - intros g' p c Hdir Hstamp Hin.
    eapply other_stamp_other_files; eauto.
  - intros f2 Hsvc.
    destruct (run_ignores_files pe g re w0 f2 Hsvc) as [H1 H2].
    rewrite H1, H2, Hrun. auto.
Qed.

Lemma output_files_named_by_start_timestamp_witness :
  let g := program_globals sample_proc in
  let w0 := world0 (<[output_dir := Dir]> ∅) in
  run_daily_automation sample_proc g (answers "report") w0 =
    (fst (run_daily_automation sample_proc g (answers "report") w0),
     snd (run_daily_automation sample_proc g (answers "report") w0)) /\
  exists evs,
    trace (snd (run_daily_automation sample_proc g (answers "report") w0)) =
      trace w0 ++ evs /\
    (forall p c, (p, c) ∈ writes evs ->
       p = OUTPUT_DIR g +:+ "/summary-" +:+ DATE_STR g +:+ ".txt" \/
       p = OUTPUT_DIR g +:+ "/error-" +:+ DATE_STR g +:+ ".log").
Proof.
  intros g w0. split; [apply surjective_pairing|].
  destruct (output_files_named_by_start_timestamp sample_proc g
              (answers "report") w0 _ _ (surjective_pairing _))
    as (evs & H1 & H2 & _).
  exists evs. split; [exact H1 | exact H2].
Defined.

(** Two programs started at instants that differ in some field down to the
    second stamp their files differently. *)
Lemma distinct_seconds_distinct_stamps pe1 pe2 :
  well_formed (clock pe1 0) -> well_formed (clock pe2 0) ->
  (year (clock pe1 0), month (clock pe1 0), day (clock pe1 0),
   hour (clock pe1 0), minute (clock pe1 0), second (clock pe1 0)) <>
  (year (clock pe2 0), month (clock pe2 0), day (clock pe2 0),
   hour (clock pe2 0), minute (clock pe2 0), second (clock pe2 0)) ->
  DATE_STR (program_globals pe1) <> DATE_STR (program_globals pe2).
Proof.
  intros H1 H2 Hne Heq. apply Hne.
  destruct (strftime_compact_inj _ _ H1 H2 Heq)
    as (-> & -> & -> & -> & -> & ->).
  reflexivity.
Qed.

(** Within one second the stamps coincide, whatever the microseconds. *)
Example same_second_same_stamp :
  strftime_compact (mkDateTime 2026 11 3 9 5 7 1) =
  strftime_compact (mkDateTime 2026 11 3 9 5 7 2500).
Proof. reflexivity. Qed.

(** * Further properties of the script *)

(** Case analysis on everything the program is given, in the order the
    script meets it. *)
Ltac split_service_of svc :=
  repeat match goal with
         | |- context [svc ?t ?f] =>
             let E := fresh "Hsvc" in
             destruct (svc t f) as [? [?|?]] eqn:E
         end.

(** Projections of a trace that starts empty, by computation. *)
Ltac read_trace0 :=
  unfold writes, output, submitted, spawned, released, mkdirs;
  cbn [app omap list_omap is_write printed_on is_submit is_spawn is_release
       is_mkdir].

Ltac every_run f env imp mk ms svc sw ew :=
  destruct imp;
    [destruct (f !! "daily-automation-output") as [[|?]|] eqn:?Hdir;
       [|destruct mk as [?|]..];
       destruct (env !! "OPENAI_API_KEY") as [[|? ?]|] eqn:?Hkey;
       try (destruct ms as [?|]; split_service_of svc;
            try destruct sw as [?|]; destruct ew as [?|])|].

(** ** Exit status *)

(** X1. The program exits with status 0 or 1, never with another one. *)
Theorem exit_status_is_0_or_1 pe re f :
  fst (run_program pe re f) = 0%Z \/ fst (run_program pe re f) = 1%Z.
Proof.
  destruct pe as [imp env clk mk], re as [ms svc sw ew].
  exec. every_run f env imp mk ms svc sw ew.
  all: exec; auto.
Qed.

(** X2. The program exits with status 0 exactly when the configuration
    succeeds, the tool provider starts, the hosted service returns a final
    output and the summary can be written. *)
Theorem status_0_iff pe re f :
  fst (run_program pe re f) = 0%Z <->
  configured pe f /\
  mcp_start_err re = None /\
  (exists f1 out,
     service re (program_task pe) (<[output_dir := Dir]> f) = (f1, inr out)) /\
  summary_write_err re = None.
Proof.
  split.
  - destruct pe as [imp env clk mk], re as [ms svc sw ew].
    unfold_names.
    cbn [imports_ok environ clock mkdir_err mcp_start_err service
         summary_write_err].
    exec. cbn [DATE_STR].
    destruct imp; [|discriminate].
    destruct (f !! "daily-automation-output") as [[|c]|] eqn:Hdir;
      [rewrite (insert_id _ _ _ Hdir) | discriminate
      | destruct mk as [e1|]; [discriminate|]].
    all: destruct (env !! "OPENAI_API_KEY") as [[|a k]|]; try discriminate.
    all: exec; cbn [DATE_STR].
    all: destruct ms as [e2|]; [destruct ew; discriminate|].
    all: split_service_of svc; [destruct ew; discriminate|].
    all: destruct sw as [e3|]; [destruct ew; discriminate|].
    all: intros _; repeat split; eauto.
  - intros (Hc & Hm & (f1 & out & Hs) & Hw).
    destruct (service_answer_is_saved pe re f f1 out Hc Hm Hs Hw)
      as (w & -> & _).
    reflexivity.
Qed.

Lemma status_0_iff_witness :
  fst (run_program sample_proc (answers "report") ∅) = 0%Z /\
  (configured sample_proc ∅ /\
   mcp_start_err (answers "report") = None /\
   (exists f1 out,
      service (answers "report") (program_task sample_proc)
        (<[output_dir := Dir]> ∅) = (f1, inr out)) /\
   summary_write_err (answers "report") = None).
Proof.
  split; [reflexivity|].
  exact (proj1 (status_0_iff sample_proc (answers "report") ∅) eq_refl).
Defined.

(** ** Files *)


(** ** Console output *)

(** X4. The closing banner line is the last thing the program does exactly
    when it exits with status 0: every failure leaves the script before
    line 105. *)
Theorem closing_banner_iff_status_0 pe re f :
  last (trace (snd (run_program pe re f))) =
    Some (EPrint Stdout (str_mul "=" 60)) <->
  fst (run_program pe re f) = 0%Z.
Proof.
  destruct pe as [imp env clk mk], re as [ms svc sw ew].
  exec. every_run f env imp mk ms svc sw ew.
  all: exec; rewrite ?last_snoc.
  all: split; intros H; try reflexivity; try discriminate H.
  all: exfalso; injection H as H; vm_compute in H; discriminate H.
Qed.

(** X5. What reaches the error stream is at most the handler's one message
    followed by at most one report of an uncaught exception, and only on a
    run with status 1.  Nothing reaches it on a run with status 0, nor on
    either configuration error: the failed import and the missing
    credential print on standard output only. *)
Theorem error_stream_contents pe re f :
  let r := run_program pe re f in
  let errs := error_stream (trace (snd r)) in
  (fst r = 0%Z -> errs = []) /\
  (imports_ok pe = false -> errs = []) /\
  (last (trace (snd r)) = Some (EPrint Stdout credential_message) ->
   errs = []) /\
  (errs = [] \/
   fst r = 1%Z /\
   ((exists e, errs = [EPrint Stderr (error_message e)]) \/
    (exists e', errs = [ETraceback e']) \/
    (exists e e', errs = [EPrint Stderr (error_message e); ETraceback e']))).
Proof.
  destruct pe as [imp env clk mk], re as [ms svc sw ew].
  unfold credential_message. cbn [imports_ok].
  exec. every_run f env imp mk ms svc sw ew.
  all: exec; rewrite ?last_snoc; unfold error_stream;
    cbn [app omap list_omap on_error_stream].
  all: repeat split;
    try (intros _; reflexivity); try (intros H; discriminate H).
  all: first [left; reflexivity
             |right; split; [reflexivity|]; left; eexists; reflexivity
             |right; split; [reflexivity|]; right; left; eexists; reflexivity
             |right; split; [reflexivity|]; right; right;
              eexists _, _; reflexivity].
Qed.

Lemma error_stream_contents_witness :
  (fst (run_program sample_proc (answers "report") ∅) = 0%Z /\
   error_stream (trace (snd (run_program sample_proc (answers "report") ∅)))
     = []) /\
  (imports_ok sample_proc_no_packages = false /\
   error_stream
     (trace (snd (run_program sample_proc_no_packages (answers "report") ∅)))
     = []) /\
  (last (trace (snd (run_program sample_proc_no_key (answers "report") ∅)))
     = Some (EPrint Stdout credential_message) /\
   error_stream
     (trace (snd (run_program sample_proc_no_key (answers "report") ∅)))
     = []).
Proof.
  split; [split; [reflexivity|]|split; [split; [reflexivity|]
                                       |split; [reflexivity|]]].
  - exact (proj1 (error_stream_contents sample_proc (answers "report") ∅)
             eq_refl).
  - exact (proj1 (proj2 (error_stream_contents sample_proc_no_packages
                           (answers "report") ∅)) eq_refl).
  - exact (proj1 (proj2 (proj2 (error_stream_contents sample_proc_no_key
                                  (answers "report") ∅))) eq_refl).
Defined.

(** The error stream on the sample runs that fail at run time. *)
Example sample_error_streams :
  error_stream (trace (snd (run_program sample_proc start_fails ∅))) =
    [EPrint Stderr "Error in daily automation: boom"] /\
  error_stream
    (trace (snd (run_program sample_proc (answers "report")
                   (<[output_dir := File "x"]> ∅)))) =
    [ETraceback (mkExc "FileExistsError"
                   "[Errno 17] File exists: 'daily-automation-output'")].
Proof. repeat split. Qed.

(** ** The credential *)

(** X6. The agents package is handed the credential only as the value of
    [OPENAI_API_KEY], which is then not empty: [set_default_openai_api] is
    never reached without a credential. *)
Theorem api_receives_the_credential pe re f arg :
  ESetDefaultApi arg ∈ trace (snd (run_program pe re f)) ->
  environ pe !! "OPENAI_API_KEY" = Some arg /\ arg <> EmptyString.
Proof.
  destruct pe as [imp env clk mk], re as [ms svc sw ew].
  cbn [environ]. exec. every_run f env imp mk ms svc sw ew.
  all: exec; cbn [app]; intros H.
  all: repeat match goal with
         | H : _ ∈ _ :: _ |- _ =>
             apply elem_of_cons in H as [H|H]; [try discriminate H|]
         | H : _ ∈ [] |- _ => inversion H
         end.
  all: injection H as ->; split; [reflexivity | discriminate].
Qed.

Lemma api_receives_the_credential_witness :
  ESetDefaultApi "sk-test"
    ∈ trace (snd (run_program sample_proc (answers "report") ∅)) /\
  environ sample_proc !! "OPENAI_API_KEY" = Some "sk-test" /\
  "sk-test" <> EmptyString.
Proof.
  assert (H : ESetDefaultApi "sk-test"
                ∈ trace (snd (run_program sample_proc (answers "report") ∅)))
    by (vm_compute; apply list_elem_of_further, list_elem_of_here).
  split; [exact H|].
  exact (api_receives_the_credential sample_proc (answers "report") ∅ _ H).
Defined.

(** X7. What the program prints, writes and submits, and its exit status,
    do not depend on the value of the credential, as long as there is one:
    the key never reaches the console, a file or the task. *)
Theorem credential_value_stays_private imp env clk mk re f key1 key2 :
  key1 <> EmptyString -> key2 <> EmptyString ->
  let r1 := run_program
              (mkProcEnv imp (<["OPENAI_API_KEY" := key1]> env) clk mk) re f in
  let r2 := run_program
              (mkProcEnv imp (<["OPENAI_API_KEY" := key2]> env) clk mk) re f in
  fst r1 = fst r2 /\
  output Stdout (trace (snd r1)) = output Stdout (trace (snd r2)) /\
  output Stderr (trace (snd r1)) = output Stderr (trace (snd r2)) /\
  writes (trace (snd r1)) = writes (trace (snd r2)) /\
  submitted (trace (snd r1)) = submitted (trace (snd r2)) /\
  fs (snd r1) = fs (snd r2).
Proof.
  destruct re as [ms svc sw ew].
  intros H1 H2. exec. rewrite !lookup_insert_eq.
  destruct key1 as [|a1 k1]; [congruence|].
  destruct key2 as [|a2 k2]; [congruence|].
  destruct imp;
    [destruct (f !! "daily-automation-output") as [[|?]|];
       [|destruct mk as [?|]..];
       try (destruct ms as [?|]; exec; cbn [DATE_STR];
            split_service_of svc;
            try destruct sw as [?|]; destruct ew as [?|])|].
  all: exec; read_trace0; repeat split.
Qed.

Lemma credential_value_stays_private_witness :
  "sk-one" <> EmptyString /\ "sk-other" <> EmptyString /\
  let r1 := run_program
              (mkProcEnv true (<["OPENAI_API_KEY" := "sk-one"]> ∅)
                         sample_clock None) (answers "report") ∅ in
  let r2 := run_program
              (mkProcEnv true (<["OPENAI_API_KEY" := "sk-other"]> ∅)
                         sample_clock None) (answers "report") ∅ in
  fst r1 = fst r2 /\
  output Stdout (trace (snd r1)) = output Stdout (trace (snd r2)) /\
  output Stderr (trace (snd r1)) = output Stderr (trace (snd r2)) /\
  writes (trace (snd r1)) = writes (trace (snd r2)) /\
  submitted (trace (snd r1)) = submitted (trace (snd r2)) /\
  fs (snd r1) = fs (snd r2).
Proof.
  split; [discriminate | split; [discriminate|]].
  apply (credential_value_stays_private true ∅ sample_clock None
           (answers "report") ∅ "sk-one" "sk-other"); discriminate.
Defined.

(** ** The task *)

Lemma instructions_name_the_report today stamp :
  contains (agent_instructions today stamp) (report_line stamp).
Proof.
  unfold agent_instructions, report_line.
  eexists
    ("You are a daily automation agent running on " +:+ today +:+ "." +:+ nl +:+
     indent +:+ nl +:+
     indent +:+ "Execute these tasks:" +:+ nl +:+
     indent +:+ "1. Analyze the repository structure and create a summary" +:+ nl +:+
     indent +:+ "2. Generate a daily status report" +:+ nl +:+
     indent +:+ "3. List any TODOs or issues found" +:+ nl +:+
     indent +:+ "4. Create recommendations for improvements" +:+ nl +:+
     indent +:+ nl +:+ indent), _.
  rewrite !append_assoc. reflexivity.
Qed.

Lemma instructions_carry_the_policy today stamp :
  contains (agent_instructions today stamp) tool_policy.
Proof.
  unfold agent_instructions, tool_policy.
  eexists
    ("You are a daily automation agent running on " +:+ today +:+ "." +:+ nl +:+
     indent +:+ nl +:+
     indent +:+ "Execute these tasks:" +:+ nl +:+
     indent +:+ "1. Analyze the repository structure and create a summary" +:+ nl +:+
     indent +:+ "2. Generate a daily status report" +:+ nl +:+
     indent +:+ "3. List any TODOs or issues found" +:+ nl +:+
     indent +:+ "4. Create recommendations for improvements" +:+ nl +:+
     indent +:+ nl +:+
     indent +:+ "Save all outputs to ./daily-automation-output/report-" +:+
       stamp +:+ ".md" +:+ nl +:+
     indent +:+ nl +:+ indent), (nl +:+ indent).
  rewrite !append_assoc. reflexivity.
Qed.

(** X8. Whatever the clock and the environment, the instructions of every
    task the program submits tell the agent to call the tool provider with
    [approval-policy never] and [sandbox workspace-write], and name the
    report file with the very timestamp that names the run's own output
    file. *)
Theorem submitted_instructions pe re f task :
  task ∈ submitted (trace (snd (run_program pe re f))) ->
  contains (instructions (task_agent task)) tool_policy /\
  contains (instructions (task_agent task))
           (report_line (strftime_compact (clock pe 0))) /\
  task_input task =
    "Execute daily automation and generate comprehensive report".
Proof.
  destruct pe as [imp env clk mk], re as [ms svc sw ew].
  cbn [clock]. exec. every_run f env imp mk ms svc sw ew.
  all: exec; cbn [DATE_STR]; read_trace0; intros H.
  all: inversion H as [|? ? ? Hnil]; subst; try (inversion Hnil; fail).
  all: cbn [instructions task_agent task_input].
  all: auto using instructions_carry_the_policy, instructions_name_the_report.
Qed.

Lemma submitted_instructions_witness :
  program_task sample_proc
    ∈ submitted (trace (snd (run_program sample_proc (answers "report") ∅))) /\
  contains (instructions (task_agent (program_task sample_proc))) tool_policy /\
  contains (instructions (task_agent (program_task sample_proc)))
           (report_line (strftime_compact (clock sample_proc 0))) /\
  task_input (program_task sample_proc) =
    "Execute daily automation and generate comprehensive report".
Proof.
  assert (H : program_task sample_proc
                ∈ submitted (trace (snd (run_program sample_proc
                                           (answers "report") ∅))))
    by (vm_compute; apply list_elem_of_here).
  split; [exact H|].
  exact (submitted_instructions sample_proc (answers "report") ∅ _ H).
Defined.

(** ** Timestamps *)

(** X9. Two programs whose start times are well-formed use the same summary
    file name exactly when they start within the same second; the
    microseconds never tell them apart. *)
Theorem same_file_iff_same_second pe1 pe2 :
  well_formed (clock pe1 0) -> well_formed (clock pe2 0) ->
  (program_summary_file pe1 = program_summary_file pe2 <->
   year (clock pe1 0) = year (clock pe2 0) /\
   month (clock pe1 0) = month (clock pe2 0) /\
   day (clock pe1 0) = day (clock pe2 0) /\
   hour (clock pe1 0) = hour (clock pe2 0) /\
   minute (clock pe1 0) = minute (clock pe2 0) /\
   second (clock pe1 0) = second (clock pe2 0)).
Proof.
  intros H1 H2. split.
  - intros H. apply strftime_compact_inj; [exact H1 | exact H2 |].
    exact (summary_path_inj (program_globals pe1) (program_globals pe2)
             eq_refl H).
  - intros (Hy & Hm & Hd & Hh & Hi & Hs).
    unfold program_summary_file, strftime_compact.
    now rewrite Hy, Hm, Hd, Hh, Hi, Hs.
Qed.

Lemma same_file_iff_same_second_witness :
  let pe1 := mkProcEnv true ∅ (fun _ => mkDateTime 2026 11 3 9 5 7 1) None in
  let pe2 := mkProcEnv true ∅ (fun _ => mkDateTime 2026 11 3 9 5 7 2500) None in
  well_formed (clock pe1 0) /\ well_formed (clock pe2 0) /\
  program_summary_file pe1 = program_summary_file pe2.
Proof.
  intros pe1 pe2.
  assert (W1 : well_formed (clock pe1 0)) by (repeat split; cbn; lia).
  assert (W2 : well_formed (clock pe2 0)) by (repeat split; cbn; lia).
  split; [exact W1 | split; [exact W2|]].
  apply (proj2 (same_file_iff_same_second pe1 pe2 W1 W2)).
  repeat split.
Defined.

(** ** Edge cases of the configuration *)

(** X10. When a regular file stands where the output directory should be,
    [mkdir(exist_ok=True)] raises [FileExistsError] at line 23: the program
    ends there with status 1 on the uncaught exception, before the
    credential is looked at, having printed nothing and changed nothing on
    disk. *)
Theorem output_dir_is_a_file pe re f c :
  imports_ok pe = true ->
  f !! output_dir = Some (File c) ->
  exists e,
    exc_class e = "FileExistsError" /\
    run_program pe re f =
      (1%Z, mkWorld f ∅ 0 0 [ETraceback e]).
Proof.
  destruct pe as [imp env clk mk], re as [ms svc sw ew].
  unfold output_dir. cbn [imports_ok]. intros -> Hdir.
  exec. rewrite Hdir. exec.
  eexists; split; [|reflexivity]. reflexivity.
Qed.

Lemma output_dir_is_a_file_witness :
  imports_ok sample_proc = true /\
  (<[output_dir := File "x"]> ∅ : gmap string Node) !! output_dir
    = Some (File "x") /\
  exists e,
    exc_class e = "FileExistsError" /\
    run_program sample_proc (answers "report") (<[output_dir := File "x"]> ∅) =
      (1%Z, mkWorld (<[output_dir := File "x"]> ∅) ∅ 0 0 [ETraceback e]).
Proof.
  split; [reflexivity|]. split; [reflexivity|].
  exact (output_dir_is_a_file sample_proc (answers "report")
           (<[output_dir := File "x"]> ∅) "x" eq_refl eq_refl).
Defined.

(** X11. Configuring twice is harmless: on the file system a successful
    configuration leaves, a second one succeeds as well, makes no
    directory and leaves the file system as it is. *)
Theorem configuration_is_repeatable pe w g w1 :
  module_level pe w = (Ok g, w1) ->
  exists g' w2,
    module_level pe w1 = (Ok g', w2) /\
    OUTPUT_DIR g' = OUTPUT_DIR g /\
    fs w2 = fs w1 /\
    mkdirs (trace w2) = mkdirs (trace w1).
Proof.
  destruct pe as [imp env clk mk], w as [f l t n tr]. exec.
  destruct imp; [|discriminate].
  destruct (f !! "daily-automation-output") as [[|c]|] eqn:Hdir;
    [|discriminate|destruct mk as [e1|]; [discriminate|]];
    destruct (env !! "OPENAI_API_KEY") as [[|a k]|] eqn:Hkey;
    try discriminate.
  all: intros H; injection H as <- <-; exec.
  all: rewrite ?lookup_insert_eq, ?Hdir; exec.
  all: eexists _, _; split; [reflexivity|]; exec; read_trace.
  all: rewrite ?app_nil_r; repeat split.
Qed.

Lemma configuration_is_repeatable_witness :
  module_level sample_proc (world0 ∅) =
    (Ok (program_globals sample_proc),
     snd (module_level sample_proc (world0 ∅))) /\
  exists g' w2,
    module_level sample_proc (snd (module_level sample_proc (world0 ∅)))
      = (Ok g', w2) /\
    OUTPUT_DIR g' = OUTPUT_DIR (program_globals sample_proc) /\
    fs w2 = fs (snd (module_level sample_proc (world0 ∅))) /\
    mkdirs (trace w2) = mkdirs (trace (snd (module_level sample_proc (world0 ∅)))).
Proof.
  assert (H : module_level sample_proc (world0 ∅) =
                (Ok (program_globals sample_proc),
                 snd (module_level sample_proc (world0 ∅))))
    by (vm_compute; reflexivity).
  split; [exact H|].
  exact (configuration_is_repeatable sample_proc (world0 ∅) _ _ H).
Defined.

(** ** Edge cases of the handler *)



(** The same when the handler was entered from the start-up. *)
Example sample_error_log_failure_after_start_failure :
  let re := mkRunEnv (Some boom) (fun _ f => (f, inr "unused")) None
                     (Some (mkExc "OSError" "disk full")) in
  let r := run_program sample_proc re ∅ in
  fst r = 1%Z /\
  last (trace (snd r)) = Some (ETraceback (mkExc "OSError" "disk full")) /\
  output Stderr (trace (snd r)) = ["Error in daily automation: boom"] /\
  writes (trace (snd r)) = [].
Proof. repeat split. Qed.

(** ** Console output and the summary *)

(** X13. The final output is printed before it is saved: whenever the
    hosted service has returned [out], the line echoing [out] is on
    standard output, also when writing the summary or the error log fails
    afterwards. *)
Theorem final_output_is_printed pe re f f1 out :
  configured pe f ->
  mcp_start_err re = None ->
  service re (program_task pe) (<[output_dir := Dir]> f) = (f1, inr out) ->
  nl +:+ "Final Output:" +:+ nl +:+ out
    ∈ output Stdout (trace (snd (run_program pe re f))).
Proof.
  destruct pe as [imp env clk mk], re as [ms svc sw ew].
  unfold_names. cbn [imports_ok environ clock mkdir_err mcp_start_err service].
  intros (-> & Hdir & Hkey) -> Hsvc.
  revert Hkey. exec. cbn [DATE_STR].
  destruct (env !! "OPENAI_API_KEY") as [[|a k]|]; try discriminate.
  intros _.
  destruct Hdir as [Hd | [Hd ->]];
    rewrite ?(insert_id _ _ _ Hd) in *;
    rewrite Hd; exec; cbn [DATE_STR]; rewrite Hsvc;
    destruct sw as [e3|]; destruct ew as [e4|].
  all: exec; read_trace0.
  all: repeat first [apply list_elem_of_here | apply list_elem_of_further].
Qed.

Lemma final_output_is_printed_witness :
  configured sample_proc ∅ /\
  mcp_start_err summary_write_fails = None /\
  service summary_write_fails (program_task sample_proc)
    (<[output_dir := Dir]> ∅) = (<[output_dir := Dir]> ∅, inr "report") /\
  nl +:+ "Final Output:" +:+ nl +:+ "report"
    ∈ output Stdout (trace (snd (run_program sample_proc summary_write_fails ∅))).
Proof.
  assert (Hc : configured sample_proc ∅)
    by (split; [reflexivity | split; [right; split; reflexivity | reflexivity]]).
  split; [exact Hc | split; [reflexivity | split; [reflexivity|]]].
  exact (final_output_is_printed sample_proc summary_write_fails ∅ _ _
           Hc eq_refl eq_refl).
Defined.

(** X14. The line [Summary saved to <path>] is truthful: whenever the
    program prints it, the file at that path has been written by this run
    and holds what the run wrote, and the exit status is 0. *)
Theorem saved_line_is_truthful pe re f p :
  nl +:+ "✓ Summary saved to " +:+ p
    ∈ output Stdout (trace (snd (run_program pe re f))) ->
  fst (run_program pe re f) = 0%Z /\
  exists out,
    writes (trace (snd (run_program pe re f))) = [(p, out)] /\
    fs (snd (run_program pe re f)) !! p = Some (File out).
Proof.
  destruct pe as [imp env clk mk], re as [ms svc sw ew].
  exec. every_run f env imp mk ms svc sw ew.
  all: exec; read_trace0; intros H.
  all: repeat match goal with
         | H : _ ∈ _ :: _ |- _ =>
             apply elem_of_cons in H as [H|H];
             [try (exfalso; symmetry in H; revert H; clear;
                   intros H; vm_compute in H; discriminate H)|]
         | H : _ ∈ [] |- _ => inversion H
         end.
  all: apply (inj (String.app nl)) in H.
  all: apply (inj (String.app "✓ Summary saved to ")) in H; subst p.
  all: split; [reflexivity|]; eexists; split; [reflexivity|].
  all: apply lookup_insert_eq.
Qed.

Lemma saved_line_is_truthful_witness :
  let r := run_program sample_proc (answers "report") ∅ in
  let p := "daily-automation-output/summary-20261103_090507.txt" in
  nl +:+ "✓ Summary saved to " +:+ p ∈ output Stdout (trace (snd r)) /\
  fst r = 0%Z /\
  exists out,
    writes (trace (snd r)) = [(p, out)] /\
    fs (snd r) !! p = Some (File out).
Proof.
  intros r p.
  assert (H : nl +:+ "✓ Summary saved to " +:+ p
                ∈ output Stdout (trace (snd r)))
    by (vm_compute;
        repeat first [apply list_elem_of_here | apply list_elem_of_further]).
  split; [exact H|].
  exact (saved_line_is_truthful sample_proc (answers "report") ∅ p H).
Defined.

(** ** The coroutine as a library function *)

(** X15. [run_daily_automation] returns to its caller only on success.  On
    every failure it ends the calling process: by [sys.exit(1)] from the
    handler, or by the exception of the error-log write when that write
    fails. *)
Theorem run_returns_only_on_success pe g re w0 :
  (exists out w,
     run_daily_automation pe g re w0 = (Ok (mkRunResult out), w) /\
     fs w !! summary_path g = Some (File out)) \/
  (exists w, run_daily_automation pe g re w0 = (SysExit 1, w)) \/
  (exists e' w,
     run_daily_automation pe g re w0 = (Raise e', w) /\
     error_write_err re = Some e').
Proof.
  destruct pe as [imp env clk mk], re as [ms svc sw ew], w0 as [f l t n tr].
  cbn [error_write_err]. exec.
  destruct ms as [e2|]; split_service_of svc; try destruct sw as [e3|];
    destruct ew as [e4|].
  all: exec.
  all: first [left; eexists _, _; split; [reflexivity|];
              exec; apply lookup_insert_eq
             |right; left; eexists; reflexivity
             |right; right; eexists _, _; split; reflexivity].
Qed.

(** A call of the coroutine that fails in the service, from a fresh state. *)
Lemma run_leaves_no_provider_witness :
  let g := program_globals sample_proc in
  let w0 := world0 (<[output_dir := Dir]> ∅) in
  run_daily_automation sample_proc g service_fails w0 =
    (fst (run_daily_automation sample_proc g service_fails w0),
     snd (run_daily_automation sample_proc g service_fails w0)) /\
  (next_id w0 ∉ live w0) /\
  live (snd (run_daily_automation sample_proc g service_fails w0)) = live w0.
Proof.
  intros g w0.
  assert (next_id w0 ∉ live w0) as Hn by (cbn; apply not_elem_of_empty).
  split; [apply surjective_pairing | split; [exact Hn|]].
  exact (run_leaves_no_provider sample_proc g service_fails w0 _ _
           (surjective_pairing _) Hn).
Defined.
